(** * Skygram client: a shallow embedding of [src/App.tsx]

    The React component [App] keeps six pieces of state and reacts to
    uploads, drops and clicks.  The handlers are embedded as computations
    in a small task monad that threads the component state, records the
    effects the handler performs (timers, the network call, DOM operations)
    and propagates JavaScript exceptions, so that [try]/[catch]/[finally]
    read as in the source. *)

From Stdlib Require Import ZArith List String Ascii Bool Lia DecimalString.
From Stdlib Require DecimalPos DecimalZ.
Import ListNotations.
Local Open Scope string_scope.
Local Open Scope list_scope.
Local Open Scope Z_scope.

(** ** JavaScript values and primitives used by the component *)

(** What a slot declared [string] holds at run time in this program: a
    string, or [undefined] (an array read outside its bounds, an absent
    property).  TypeScript's annotations are erased, so the slot type has
    both. *)
Inductive JSValue : Type :=
| JSUndefined
| JSString (s : string).

(** Truthiness, as [if (v)], [v && e] and [v ? a : b] test it. *)
Definition truthy_string (s : string) : bool :=
  match s with
  | EmptyString => false
  | String _ _ => true
  end.

Definition truthy (v : JSValue) : bool :=
  match v with
  | JSUndefined => false
  | JSString s => truthy_string s
  end.

(** String conversion inside a template literal. *)
Definition to_template (v : JSValue) : string :=
  match v with
  | JSUndefined => "undefined"
  | JSString s => s
  end.

(** [xs[i]] on an array of strings. *)
Definition js_index (xs : list string) (i : Z) : JSValue :=
  if i <? 0 then JSUndefined
  else match nth_error xs (Z.to_nat i) with
       | Some s => JSString s
       | None => JSUndefined
       end.

(** [s.startsWith(p)]. *)
Definition startsWith (p s : string) : bool := String.prefix p s.

(** [s.substring(n)]: the code units from position [n] to the end. *)
Fixpoint substring_from (n : nat) (s : string) : string :=
  match n, s with
  | O, _ => s
  | S _, EmptyString => EmptyString
  | S k, String _ rest => substring_from k rest
  end.

(** A number in a template literal; only integers (HTTP statuses) occur. *)
Definition number_to_string (n : Z) : string :=
  NilZero.string_of_int (Z.to_int n).

(** *** Doubles in the unit interval

    [Math.random()] returns a double [u] with [0 <= u < 1].  Every such
    double is [mant / 2^expo] for integers [0 <= mant < 2^53] and
    [53 <= expo]. *)
Record Dyadic : Type := mkDyadic { mant : Z; expo : Z }.

Definition unit_double (d : Dyadic) : Prop :=
  0 <= mant d < 2 ^ 53 /\ 53 <= expo d.

(** Rounding of a non-negative dyadic to 53 significant bits, to nearest,
    ties to even: the rounding of every double operation. *)
Definition round53 (d : Dyadic) : Dyadic :=
  let s := Z.log2 (mant d) + 1 - 53 in
  if s <=? 0 then d
  else
    let q := Z.shiftr (mant d) s in
    let r := mant d mod 2 ^ s in
    let half := 2 ^ (s - 1) in
    let up := (half <? r) || ((r =? half) && Z.odd q) in
    mkDyadic (if up then q + 1 else q) (expo d - s).

(** [u * k] for an integer [k]: the exact product, rounded. *)
Definition double_mul (u : Dyadic) (k : Z) : Dyadic :=
  round53 (mkDyadic (mant u * k) (expo u)).

(** [Math.floor]. *)
Definition Math_floor (d : Dyadic) : Z :=
  if 0 <=? expo d then mant d / 2 ^ expo d
  else mant d * 2 ^ (- expo d).

(** [array.length]. *)
Definition js_length {A : Type} (xs : list A) : Z := Z.of_nat (List.length xs).

(** ** Data model *)

(** [interface ProcessingStage]; [icon] holds the name of the icon
    component. *)
Record ProcessingStage : Type := mkStage {
  id : string;
  name : string;
  icon : string;
  description : string
}.

(** [interface ProcessingResult]: six slots, each declared [string]. *)
Record ProcessingResult : Type := mkResult {
  session_id : JSValue;
  detected_object : JSValue;
  caption : JSValue;
  original_image_url : JSValue;
  generated_image_url : JSValue;
  download_url : JSValue
}.

(** The falsy values a JSON body can be. *)
Inductive FalsyJson : Type :=
| JsonNull
| JsonFalse
| JsonZero
| JsonEmpty.

(** What the [result] cell holds at run time.  The annotation
    [ProcessingResult | null] is erased, and the cell takes whatever
    [response.json()] resolved to: a falsy value ([null], [false], [0] or
    the empty string), or a truthy one, read through the six slots.  A
    truthy value that is no object (a number, a string, [true], an array)
    reads like an object without any of the six properties; a slot is
    modelled as far as it holds a string or nothing. *)
Inductive ResultCell : Type :=
| Blank (v : FalsyJson)
| Held (r : ProcessingResult).

(** Truthiness of the cell, as [result && e] and [!result] test it. *)
Definition cell_truthy (c : ResultCell) : bool :=
  match c with
  | Blank _ => false
  | Held _ => true
  end.

Definition processingStages : list ProcessingStage :=
  [ mkStage "upload" "Uploading Image" "Eye"
      "Sending your cloud photo to server...";
    mkStage "outline" "AI Analysis" "Camera"
      "Analyzing your cloud pattern...";
    mkStage "classify" "Recognizing Objects" "Sparkles"
      "Identifying cloud shapes...";
    mkStage "generate" "Creating Cloud Art" "Wand2"
      "Generating your artwork..." ].

Definition funnyCaptions : list string :=
  [ "Nature's got jokes! 🌤️";
    "When clouds have better imagination than humans 🤭";
    "Sky doodles by Mother Nature 🎨" ].

(** The literal array indexed on line 99. *)
Definition mockObjects : list string := [ "dragon"; "dog"; "castle" ].

(** A [File] of the browser: its name and its MIME type. *)
Record File : Type := mkFile {
  file_name : string;
  file_type : string
}.

(** The component state: the six [useState] cells. *)
Record AppState : Type := mkState {
  uploadedImage : option string;
  isProcessing : bool;
  currentStage : Z;
  result : ResultCell;
  isDragging : bool;
  error : option string
}.

(** The state [useState]'s initial values give. *)
Definition initialState : AppState :=
  mkState None false 0 (Blank JsonNull) false None.

(** Truthiness of a [string | null] cell. *)
Definition truthy_opt (v : option string) : bool :=
  match v with
  | Some s => truthy_string s
  | None => false
  end.

Definition is_some {A : Type} (v : option A) : bool :=
  match v with
  | Some _ => true
  | None => false
  end.

(** The guard of the upload area, which holds the file input: while it
    is rendered [fileInputRef.current] is the input, otherwise [null]. *)
Definition upload_area_shown (st : AppState) : bool :=
  negb (truthy_opt (uploadedImage st)) && negb (isProcessing st)
  && negb (cell_truthy (result st)).

(** ** Effects and the task monad *)

(** A thrown value: an [Error] object with its message, or any other
    value ([err instanceof Error] tells them apart). *)
Inductive Thrown : Type :=
| JSError (message : string)
| NonError (v : JSValue).

(** The [Response] of [fetch]: its [ok] flag, its [status], and what
    [response.json()] settles to.  The annotation on line 89 types the
    parsed body [ProcessingResult], but nothing checks it: the body is
    whatever JSON the server sent, [null] included. *)
Inductive JsonOutcome : Type :=
| JsonRejects (e : Thrown)
| JsonResolves (data : ResultCell).

Record Response : Type := mkResponse {
  ok : bool;
  status : Z;
  json : JsonOutcome
}.

Inductive FetchOutcome : Type :=
| Rejects (e : Thrown)
| Resolves (r : Response).

(** What the browser and the server answer: everything the handlers read
    from outside the component. *)
Record World : Type := mkWorld {
  (* the build-time variable, when it is set *)
  VITE_API_URL : option string;
  (* how the POST of a file, under a form field, to an address settles *)
  fetch : string -> string -> File -> FetchOutcome;
  (* the data URL the FileReader loads, when the read succeeds *)
  readAsDataURL : File -> option string;
  (* the three draws of Math.random() in the fallback, in the order of
     evaluation: the first already printed by toString(36), whose digits
     are left to the engine *)
  random_base36 : string;
  random_object : Dyadic;
  random_caption : Dyadic
}.

(** The promises a handler awaits. *)
Inductive Effect : Type :=
| Sleep (ms : Z)
| FetchPost (url : string) (field : string) (file : File)
| ResponseJson
| FileRead (file : File).

(** The [<a>] element [handleDownload] builds. *)
Record Anchor : Type := mkAnchor {
  href : string;
  download : string
}.

(** What a handler does to the outside, in order.  [Await st eff]: the
    handler suspends on [eff]; [st] is the state committed at that point,
    the one the user sees while the promise is pending. *)
Inductive Event : Type :=
| Await (snapshot : AppState) (eff : Effect)
| ConsoleError (label : string) (e : Thrown)
| PreventDefault
| AppendChild (a : Anchor)
| Click (a : Anchor)
| RemoveChild (a : Anchor)
| ClearFileInput.

Inductive Completion (A : Type) : Type :=
| Normal (a : A)
| Throw (e : Thrown).
Arguments Normal {A} a.
Arguments Throw {A} e.

Definition Task (A : Type) : Type :=
  AppState -> Completion A * AppState * list Event.

Definition ret {A : Type} (a : A) : Task A :=
  fun st => (Normal a, st, []).

Definition bind {A B : Type} (m : Task A) (k : A -> Task B) : Task B :=
  fun st =>
    match m st with
    | (Normal a, st1, log1) =>
        match k a st1 with
        | (c, st2, log2) => (c, st2, log1 ++ log2)
        end
    | (Throw e, st1, log1) => (Throw e, st1, log1)
    end.

Notation "x <- m ;; k" := (bind m (fun x => k))
  (at level 61, m at next level, right associativity).
Notation "m ;; k" := (bind m (fun _ => k))
  (at level 61, right associativity).

Definition throw {A : Type} (e : Thrown) : Task A :=
  fun st => (Throw e, st, []).

(** [try { body } catch (err) { handler err } finally { cleanup }]. *)
Definition try_catch_finally (body : Task unit) (handler : Thrown -> Task unit)
    (cleanup : Task unit) : Task unit :=
  fun st =>
    let '(c1, st1, log1) :=
      match body st with
      | (Normal a, st1, log1) => (Normal a, st1, log1)
      | (Throw e, st1, log1) =>
          match handler e st1 with
          | (c, st2, log2) => (c, st2, log1 ++ log2)
          end
      end in
    match cleanup st1 with
    | (Normal _, st2, log2) => (c1, st2, log1 ++ log2)
    | (Throw e, st2, log2) => (Throw e, st2, log1 ++ log2)
    end.

Definition emit (ev : Event) : Task unit :=
  fun st => (Normal tt, st, [ev]).

Definition await (eff : Effect) : Task unit :=
  fun st => (Normal tt, st, [Await st eff]).

Definition get_state : Task AppState :=
  fun st => (Normal st, st, []).

(** The six state setters. *)
Definition setUploadedImage (v : option string) : Task unit :=
  fun st => (Normal tt,
             mkState v (isProcessing st) (currentStage st) (result st)
                     (isDragging st) (error st), []).

Definition setIsProcessing (v : bool) : Task unit :=
  fun st => (Normal tt,
             mkState (uploadedImage st) v (currentStage st) (result st)
                     (isDragging st) (error st), []).

Definition setCurrentStage (v : Z) : Task unit :=
  fun st => (Normal tt,
             mkState (uploadedImage st) (isProcessing st) v (result st)
                     (isDragging st) (error st), []).

Definition setResult (v : ResultCell) : Task unit :=
  fun st => (Normal tt,
             mkState (uploadedImage st) (isProcessing st) (currentStage st) v
                     (isDragging st) (error st), []).

Definition setIsDragging (v : bool) : Task unit :=
  fun st => (Normal tt,
             mkState (uploadedImage st) (isProcessing st) (currentStage st)
                     (result st) v (error st), []).

Definition setError (v : option string) : Task unit :=
  fun st => (Normal tt,
             mkState (uploadedImage st) (isProcessing st) (currentStage st)
                     (result st) (isDragging st) v, []).

(** [for (let i = lo; i < hi; i++) body i]; at most [fuel] rounds. *)
Fixpoint for_loop (fuel : nat) (i hi : Z) (body : Z -> Task unit) : Task unit :=
  match fuel with
  | O => ret tt
  | S fuel' =>
      if i <? hi then body i ;; for_loop fuel' (i + 1) hi body
      else ret tt
  end.

Definition for_range (lo hi : Z) (body : Z -> Task unit) : Task unit :=
  for_loop (Z.to_nat (hi - lo)) lo hi body.

(** Accessors of a run. *)
Definition completion_of {A : Type} (r : Completion A * AppState * list Event)
  : Completion A := fst (fst r).
Definition final_state {A : Type} (r : Completion A * AppState * list Event)
  : AppState := snd (fst r).
Definition events_of {A : Type} (r : Completion A * AppState * list Event)
  : list Event := snd r.

(** ** The component's handlers *)

Section Handlers.

Variable env : World.

(** [import.meta.env.VITE_API_URL || 'http://localhost:8000']. *)
Definition API_BASE_URL : string :=
  match VITE_API_URL env with
  | Some url => if truthy_string url then url else "http://localhost:8000"
  | None => "http://localhost:8000"
  end.

(** [await new Promise(resolve => setTimeout(resolve, ms))]. *)
Definition sleep (ms : Z) : Task unit := await (Sleep ms).

(** [await fetch(url, { method: 'POST', body: formData })], the form
    holding [file] under [field]. *)
Definition fetch_post (url field : string) (file : File) : Task Response :=
  await (FetchPost url field file) ;;
  match fetch env url field file with
  | Rejects e => throw e
  | Resolves r => ret r
  end.

(** [await response.json()]. *)
Definition response_json (r : Response) : Task ResultCell :=
  await ResponseJson ;;
  match json r with
  | JsonRejects e => throw e
  | JsonResolves data => ret data
  end.

(** The object literal of the fallback (lines 97-104). *)
Definition mockResult : ProcessingResult :=
  {| session_id :=
       JSString ("mock-" ++ substring_from 2 (random_base36 env));
     detected_object :=
       js_index mockObjects (Math_floor (double_mul (random_object env) 3));
     caption :=
       js_index funnyCaptions
         (Math_floor (double_mul (random_caption env)
                                 (js_length funnyCaptions)));
     original_image_url := JSString "/mock/original.jpg";
     generated_image_url := JSString "/mock/generated.jpg";
     download_url := JSString "/mock/download.jpg" |}.

(** [err instanceof Error ? err.message : 'Processing failed']. *)
Definition error_message (err : Thrown) : string :=
  match err with
  | JSError message => message
  | NonError _ => "Processing failed"
  end.

Definition processCloudImage (file : File) : Task unit :=
  setIsProcessing true ;;
  setCurrentStage 0 ;;
  setError None ;;
  try_catch_finally
    (for_range 0 (js_length processingStages)
       (fun i => setCurrentStage i ;; sleep 1000) ;;
     response <- fetch_post (API_BASE_URL ++ "/process-cloud")%string
                            "file" file ;;
     (if negb (ok response)
      then throw (JSError ("Server responded with "
                           ++ number_to_string (status response)))
      else ret tt) ;;
     data <- response_json response ;;
     setResult data)
    (fun err =>
       emit (ConsoleError "Processing failed:" err) ;;
       setError (Some (error_message err)) ;;
       setResult (Held mockResult))
    (setIsProcessing false).

(** [reader.onload] fires only when the read succeeds; it then stores
    the data URL and starts the processing. *)
Definition handleFileUpload (file : File) : Task unit :=
  if negb (startsWith "image/" (file_type file)) then
    setError (Some "Please upload an image file")
  else
    await (FileRead file) ;;
    match readAsDataURL env file with
    | Some dataURL =>
        setUploadedImage (Some dataURL) ;;
        processCloudImage file
    | None => ret tt
    end.

(** [files] is [e.dataTransfer.files]. *)
Definition handleDrop (files : list File) : Task unit :=
  emit PreventDefault ;;
  setIsDragging false ;;
  match files with
  | file0 :: _ => handleFileUpload file0
  | [] => ret tt
  end.

Definition handleDragOver : Task unit :=
  emit PreventDefault ;;
  setIsDragging true.

Definition handleDragLeave : Task unit :=
  emit PreventDefault ;;
  setIsDragging false.

(** [files] is [e.target.files], [null] when the input holds none. *)
Definition handleFileInput (files : option (list File)) : Task unit :=
  match files with
  | Some (file0 :: _) => handleFileUpload file0
  | Some [] => ret tt
  | None => ret tt
  end.

Definition handleDownload : Task unit :=
  st <- get_state ;;
  match result st with
  | Held res =>
      if truthy (download_url res) then
        let downloadUrl :=
          (API_BASE_URL ++ to_template (download_url res))%string in
        let link :=
          mkAnchor downloadUrl
                   ("cloud-art-" ++ to_template (session_id res) ++ ".png") in
        emit (AppendChild link) ;;
        emit (Click link) ;;
        emit (RemoveChild link)
      else ret tt
  | Blank _ => ret tt
  end.

Definition resetApp : Task unit :=
  shown <- get_state ;;
  setUploadedImage None ;;
  setIsProcessing false ;;
  setCurrentStage 0 ;;
  setResult (Blank JsonNull) ;;
  setError None ;;
  if upload_area_shown shown then emit ClearFileInput else ret tt.

(** [onClick={() => setError(null)}] of the banner's button. *)
Definition dismissError : Task unit := setError None.

(** *** What the component renders *)

Inductive StageMark : Type := StageDone | StageCurrent | StagePending.

Record ResultView : Type := mkResultView {
  original_src : string;
  generated_src : option string;
  detected_text : JSValue;
  caption_text : JSValue
}.

Record View : Type := mkView {
  error_banner : option string;
  upload_area : bool;
  stage_panel : option (list StageMark);
  preview : option string;
  preview_reset_button : bool;
  results : option ResultView;
  (* what [{result && ...}] leaves on the page when [result] is falsy:
     React renders the number 0 and nothing for the other falsy values *)
  stray_text : option string
}.

Fixpoint stage_marks (stages : list ProcessingStage) (index current : Z)
  : list StageMark :=
  match stages with
  | [] => []
  | _ :: rest =>
      (if index =? current then StageCurrent
       else if index <? current then StageDone
       else StagePending) :: stage_marks rest (index + 1) current
  end.

Definition render (st : AppState) : View :=
  {| error_banner :=
       if truthy_opt (error st) then error st else None;
     upload_area := upload_area_shown st;
     stage_panel :=
       if isProcessing st
       then Some (stage_marks processingStages 0 (currentStage st))
       else None;
     preview :=
       if truthy_opt (uploadedImage st) then uploadedImage st else None;
     preview_reset_button :=
       negb (isProcessing st) && negb (cell_truthy (result st));
     results :=
       match result st with
       | Held res =>
           Some {| original_src :=
                     match uploadedImage st with
                     | Some src => if truthy_string src then src
                                   else EmptyString
                     | None => EmptyString
                     end;
                   generated_src :=
                     if truthy (generated_image_url res)
                     then Some (API_BASE_URL
                                ++ to_template (generated_image_url res))%string
                     else None;
                   detected_text := detected_object res;
                   caption_text := caption res |}
       | Blank _ => None
       end;
     stray_text :=
       match result st with
       | Blank JsonZero => Some "0"
       | _ => None
       end |}.

End Handlers.

(** ** Describing a run *)

Section Runs.

Variable env : World.

(** The address the upload is posted to. *)
Definition process_url : string :=
  (API_BASE_URL env ++ "/process-cloud")%string.

(** The network call fails: [fetch] rejects, or the response is not
    [ok]. *)
Definition network_call_fails (file : File) : Prop :=
  match fetch env process_url "file" file with
  | Rejects _ => True
  | Resolves r => ok r = false
  end.

(** What the [try] block throws, if anything. *)
Definition run_failure (file : File) : option Thrown :=
  match fetch env process_url "file" file with
  | Rejects e => Some e
  | Resolves r =>
      if ok r then
        match json r with
        | JsonRejects e => Some e
        | JsonResolves _ => None
        end
      else Some (JSError ("Server responded with "
                          ++ number_to_string (status r)))
  end.

(** What the run stores in the [result] cell: the parsed body as it
    came, or the fabricated record. *)
Definition run_result (file : File) : ResultCell :=
  match fetch env process_url "file" file with
  | Resolves r =>
      if ok r then
        match json r with
        | JsonResolves data => data
        | JsonRejects _ => Held (mockResult env)
        end
      else Held (mockResult env)
  | Rejects _ => Held (mockResult env)
  end.

(** The state shown while stage [i] is pending. *)
Definition stage_state (st : AppState) (i : Z) : AppState :=
  mkState (uploadedImage st) true i (result st) (isDragging st) None.

(** Whether the body of the response is read. *)
Definition reads_json (file : File) : list Effect :=
  match fetch env process_url "file" file with
  | Resolves r => if ok r then [ResponseJson] else []
  | Rejects _ => []
  end.

(** The two terminal views. *)
Definition shows_result (st : AppState) : bool :=
  is_some (results (render env st)).


End Runs.


(** The states committed at the suspension points of a run. *)
Fixpoint snapshots (log : list Event) : list AppState :=
  match log with
  | [] => []
  | Await st _ :: rest => st :: snapshots rest
  | _ :: rest => snapshots rest
  end.

Definition is_network_event (ev : Event) : bool :=
  match ev with
  | Await _ (FetchPost _ _ _) => true
  | _ => false
  end.

Definition is_timer_event (ev : Event) : bool :=
  match ev with
  | Await _ (Sleep _) => true
  | _ => false
  end.

(** The slots of a record, by name, in the order of the interface. *)
Definition slots (r : ProcessingResult) : list (string * JSValue) :=
  [ ("session_id", session_id r);
    ("detected_object", detected_object r);
    ("caption", caption r);
    ("original_image_url", original_image_url r);
    ("generated_image_url", generated_image_url r);
    ("download_url", download_url r) ].

Definition is_string (v : JSValue) : bool :=
  match v with
  | JSString _ => true
  | JSUndefined => false
  end.


(** ** Sample files and worlds *)

Definition cloud1 : File := mkFile "cloud1.jpg" "image/jpeg".
Definition notes : File := mkFile "notes.txt" "text/plain".

Definition sample_data_url : string := "data:image/jpeg;base64,/9j/4AAQ".

(** The server cannot be reached. *)
Definition offline_world : World :=
  mkWorld None
          (fun _ _ _ => Rejects (JSError "Failed to fetch"))
          (fun _ => Some sample_data_url)
          "0.4fzyo82mvyr"
          (mkDyadic (2 ^ 53 - 1) 53)
          (mkDyadic 1 53).

(** The server answers with status 500. *)
Definition failing_server_world : World :=
  mkWorld (Some "https://skygram.example")
          (fun _ _ _ =>
             Resolves (mkResponse false 500 (JsonRejects (NonError JSUndefined))))
          (fun _ => Some sample_data_url)
          "0.k3x"
          (mkDyadic (2 ^ 52) 53)
          (mkDyadic (2 ^ 53 - 1) 1074).

Definition dragon_record : ProcessingResult :=
  mkResult (JSString "7f3c")
           (JSString "dragon")
           (JSString "Sky doodles by Mother Nature 🎨")
           (JSString "/images/original/7f3c")
           (JSString "/images/generated/7f3c_generated.png")
           (JSString "/download/7f3c_generated.png").

(** The server answers with a record. *)
Definition online_world : World :=
  mkWorld None
          (fun _ _ _ =>
             Resolves (mkResponse true 200 (JsonResolves (Held dragon_record))))
          (fun _ => Some sample_data_url)
          "0.9zz"
          (mkDyadic 0 53)
          (mkDyadic (2 ^ 52) 53).

(** A state in which a file is being dragged over the drop zone. *)
Definition dragging_state : AppState :=
  mkState None false 0 (Blank JsonNull) true None.

(** The object [{}]: none of the six properties. *)
Definition empty_object : ProcessingResult :=
  mkResult JSUndefined JSUndefined JSUndefined JSUndefined JSUndefined
           JSUndefined.

(** The server answers ok with the body [{}]. *)
Definition empty_object_world : World :=
  mkWorld None
          (fun _ _ _ =>
             Resolves (mkResponse true 200 (JsonResolves (Held empty_object))))
          (fun _ => Some sample_data_url)
          "0.5"
          (mkDyadic 0 53)
          (mkDyadic 0 53).


(** ** User actions *)

(** The events the JSX wires to handlers: [onDrop], [onDragOver] and
    [onDragLeave] of the drop zone, [onChange] of the file input, and the
    clicks on "Download Art", on the two buttons bound to [resetApp]
    and on the banner's close button. *)
Inductive Action : Type :=
| DropFiles (files : list File)
| DragOverZone
| DragLeaveZone
| SelectFiles (files : option (list File))
| ClickDownload
| ClickReset
| ClickDismiss.

Definition perform (env : World) (a : Action) : Task unit :=
  match a with
  | DropFiles files => handleDrop env files
  | DragOverZone => handleDragOver
  | DragLeaveZone => handleDragLeave
  | SelectFiles files => handleFileInput env files
  | ClickDownload => handleDownload env
  | ClickReset => resetApp
  | ClickDismiss => dismissError
  end.

(** The "remove" button over the preview: rendered inside the preview,
    under its own guard. *)
Definition remove_button_shown (st : AppState) : bool :=
  truthy_opt (uploadedImage st)
  && negb (isProcessing st) && negb (cell_truthy (result st)).

(** A control bound to [resetApp] is rendered: "Try Another Cloud" in
    the results, or the "remove" button over the preview. *)
Definition reset_control_shown (st : AppState) : bool :=
  cell_truthy (result st) || remove_button_shown st.

Definition is_clear_input (ev : Event) : bool :=
  match ev with
  | ClearFileInput => true
  | _ => false
  end.

Definition count_current (marks : list StageMark) : nat :=
  List.length (filter (fun m => match m with StageCurrent => true | _ => false end)
                      marks).

(** The state in which [handleDrop] starts the upload. *)
Definition drop_state (st : AppState) : AppState :=
  mkState (uploadedImage st) (isProcessing st) (currentStage st) (result st)
          false (error st).

(** The file cannot be read: the reader's [onload] never fires. *)
Definition unreadable_world : World :=
  mkWorld None
          (fun _ _ _ =>
             Resolves (mkResponse true 200 (JsonResolves (Held dragon_record))))
          (fun _ => None)
          "0.1"
          (mkDyadic 0 53)
          (mkDyadic 0 53).

(** ** The pseudo-random indices *)

Lemma pow2_53 : 2 ^ 53 = 9007199254740992.
Proof. reflexivity. Qed.

Lemma floor_times_3_range (u : Dyadic) :
  unit_double u -> 0 <= Math_floor (double_mul u 3) < 3.
Proof.
  destruct u as [m p]. unfold unit_double, double_mul, round53. cbn [mant expo].
  rewrite pow2_53. intros [Hm Hp].
  assert (Hp53 : 9007199254740992 <= 2 ^ p).
  { rewrite <- pow2_53. apply Z.pow_le_mono_r; lia. }
  destruct (Z.eq_dec m 0) as [-> | Hm0].
  - cbn. unfold Math_floor. cbn [mant expo].
    destruct (0 <=? p) eqn:E; [ | lia ].
    rewrite Z.div_0_l by lia. lia.
  - set (N := m * 3). assert (HN : 0 < N <= 27021597764222973) by (unfold N; lia).
    pose proof (Z.log2_spec N (proj1 HN)) as [Hlo Hhi].
    pose proof (Z.log2_nonneg N) as HL0.
    assert (HL : Z.log2 N <= 54).
    { assert (Z.log2 N < 55); [ | lia ].
      apply Z.log2_lt_pow2; [ lia | ]. change (2 ^ 55) with 36028797018963968. lia. }
    destruct (Z.log2 N + 1 - 53 <=? 0) eqn:Es.
    + apply Z.leb_le in Es. unfold Math_floor. cbn [mant expo].
      destruct (0 <=? p) eqn:E; [ | lia ].
      assert (N < 9007199254740992).
      { assert (Hle : 2 ^ Z.succ (Z.log2 N) <= 2 ^ 53)
          by (apply Z.pow_le_mono_r; lia).
        rewrite pow2_53 in Hle. lia. }
      split; [ apply Z.div_pos; lia | apply Z.div_lt_upper_bound; lia ].
    + apply Z.leb_gt in Es.
      assert (HLc : Z.log2 N = 53 \/ Z.log2 N = 54) by lia.
      destruct HLc as [HLc | HLc]; rewrite HLc in *.
      * change (53 + 1 - 53) with 1. change (1 - 1) with 0.
        rewrite Z.shiftr_div_pow2 by lia.
        change (2 ^ 1) with 2. change (2 ^ 0) with 1.
        change (2 ^ Z.succ 53) with 18014398509481984 in Hhi.
        assert (Hq : 0 <= N / 2 < 9007199254740992).
        { split; [ apply Z.div_pos; lia | apply Z.div_lt_upper_bound; lia ]. }
        assert (Hp52 : 4503599627370496 <= 2 ^ (p - 1)).
        { change 4503599627370496 with (2 ^ 52). apply Z.pow_le_mono_r; lia. }
        unfold Math_floor.
        destruct ((1 <? N mod 2) || (N mod 2 =? 1) && Z.odd (N / 2));
          cbn [mant expo];
          (destruct (0 <=? p - 1) eqn:E; [ | lia ]);
          (split; [ apply Z.div_pos; lia | apply Z.div_lt_upper_bound; lia ]).
      * change (54 + 1 - 53) with 2. change (2 - 1) with 1.
        rewrite Z.shiftr_div_pow2 by lia.
        change (2 ^ 2) with 4. change (2 ^ 1) with 2.
        pose proof (Z.div_mod N 4 ltac:(lia)) as Hdm.
        pose proof (Z.mod_pos_bound N 4 ltac:(lia)) as Hmod.
        assert (Hp51 : 2251799813685248 <= 2 ^ (p - 2)).
        { change 2251799813685248 with (2 ^ 51). apply Z.pow_le_mono_r; lia. }
        unfold Math_floor.
        destruct (2 <? N mod 4) eqn:E1; cbn [orb].
        -- apply Z.ltb_lt in E1. cbn [mant expo].
           destruct (0 <=? p - 2) eqn:E; [ | lia ].
           split; [ apply Z.div_pos; lia | apply Z.div_lt_upper_bound; lia ].
        -- destruct (N mod 4 =? 2) eqn:E2; cbn [andb].
           ++ apply Z.eqb_eq in E2.
              destruct (Z.odd (N / 4)); cbn [mant expo];
                (destruct (0 <=? p - 2) eqn:E; [ | lia ]);
                (split; [ apply Z.div_pos; lia
                        | apply Z.div_lt_upper_bound; lia ]).
           ++ cbn [mant expo].
              destruct (0 <=? p - 2) eqn:E; [ | lia ].
              split; [ apply Z.div_pos; lia | apply Z.div_lt_upper_bound; lia ].
Qed.

Lemma js_index_in_range (xs : list string) (i : Z) :
  0 <= i < js_length xs ->
  exists s, js_index xs i = JSString s /\ nth_error xs (Z.to_nat i) = Some s.
Proof.
  unfold js_index, js_length. intros [Hlo Hhi].
  destruct (i <? 0) eqn:E; [ apply Z.ltb_lt in E; lia | ].
  destruct (nth_error xs (Z.to_nat i)) as [s | ] eqn:En.
  - exists s. split; reflexivity.
  - apply nth_error_None in En. lia.
Qed.

Lemma mock_object_drawn (u : Dyadic) :
  unit_double u ->
  exists s, js_index mockObjects (Math_floor (double_mul u 3)) = JSString s
            /\ In s mockObjects.
Proof.
  intros Hu. pose proof (floor_times_3_range u Hu) as Hr.
  destruct (js_index_in_range mockObjects (Math_floor (double_mul u 3)))
    as [s [Hs Hn]]; [ exact Hr | ].
  exists s. split; [ exact Hs | eapply nth_error_In; exact Hn ].
Qed.

Lemma mock_caption_drawn (u : Dyadic) :
  unit_double u ->
  exists s, js_index funnyCaptions
              (Math_floor (double_mul u (js_length funnyCaptions))) = JSString s
            /\ In s funnyCaptions.
Proof.
  intros Hu. change (js_length funnyCaptions) with 3.
  pose proof (floor_times_3_range u Hu) as Hr.
  destruct (js_index_in_range funnyCaptions (Math_floor (double_mul u 3)))
    as [s [Hs Hn]]; [ exact Hr | ].
  exists s. split; [ exact Hs | eapply nth_error_In; exact Hn ].
Qed.

(** ** One run of [processCloudImage] *)

(** Every run, whatever the network answers: the five suspensions of the
    staged prefix, the reading of the body when the response is [ok], and
    the fallback when the [try] block threw. *)
Lemma processCloudImage_run (env : World) (file : File) (st : AppState) :
  processCloudImage env file st =
  (Normal tt,
   mkState (uploadedImage st) false 3 (run_result env file)
           (isDragging st)
           (match run_failure env file with
            | Some e => Some (error_message e)
            | None => None
            end),
   [ Await (stage_state st 0) (Sleep 1000);
     Await (stage_state st 1) (Sleep 1000);
     Await (stage_state st 2) (Sleep 1000);
     Await (stage_state st 3) (Sleep 1000);
     Await (stage_state st 3) (FetchPost (process_url env) "file" file) ]
   ++ map (Await (stage_state st 3)) (reads_json env file)
   ++ match run_failure env file with
      | Some e => [ConsoleError "Processing failed:" e]
      | None => []
      end).
Proof.
  unfold run_result, run_failure, reads_json.
  unfold processCloudImage, try_catch_finally, fetch_post, response_json.
  fold (process_url env).
  destruct (fetch env (process_url env) "file" file)
    as [e | [rok rstatus rjson]].
  - reflexivity.
  - destruct rok; [ destruct rjson as [e | data] | ]; reflexivity.
Qed.

Lemma run_failure_result (env : World) (file : File) (e : Thrown) :
  run_failure env file = Some e -> run_result env file = Held (mockResult env).
Proof.
  unfold run_failure, run_result.
  destruct (fetch env (process_url env) "file" file) as [e' | r].
  - reflexivity.
  - destruct (ok r); [ | reflexivity ].
    destruct (json r); [ reflexivity | discriminate ].
Qed.

Lemma network_failure_thrown (env : World) (file : File) :
  network_call_fails env file -> exists e, run_failure env file = Some e.
Proof.
  unfold network_call_fails, run_failure.
  destruct (fetch env (process_url env) "file" file) as [e | r].
  - intros _. exists e. reflexivity.
  - intros ->. eexists. reflexivity.
Qed.

Lemma handleFileUpload_rejects (env : World) (file : File) (st : AppState) :
  startsWith "image/" (file_type file) = false ->
  handleFileUpload env file st =
  (Normal tt,
   mkState (uploadedImage st) (isProcessing st) (currentStage st) (result st)
           (isDragging st) (Some "Please upload an image file"),
   []).
Proof.
  intros H. unfold handleFileUpload. rewrite H. reflexivity.
Qed.

Lemma handleFileUpload_accepts
    (env : World) (file : File) (st : AppState) (dataURL : string) :
  startsWith "image/" (file_type file) = true ->
  readAsDataURL env file = Some dataURL ->
  let loaded :=
    mkState (Some dataURL) (isProcessing st) (currentStage st) (result st)
            (isDragging st) (error st) in
  handleFileUpload env file st =
  (completion_of (processCloudImage env file loaded),
   final_state (processCloudImage env file loaded),
   Await st (FileRead file) :: events_of (processCloudImage env file loaded)).
Proof.
  intros Himg Hread. cbn zeta.
  unfold handleFileUpload. rewrite Himg. cbn [negb].
  unfold bind at 1. cbn [await]. unfold await.
  rewrite Hread. unfold bind at 1. cbn [setUploadedImage].
  unfold setUploadedImage.
  destruct (processCloudImage env file _) as [[c s] log]. reflexivity.
Qed.

(** The three ways an upload goes: rejected for its type, lost because
    the file cannot be read, or read and processed. *)
Lemma handleFileUpload_run (env : World) (file : File) (st : AppState) :
  handleFileUpload env file st =
  if startsWith "image/" (file_type file) then
    match readAsDataURL env file with
    | Some dataURL =>
        let loaded :=
          mkState (Some dataURL) (isProcessing st) (currentStage st)
                  (result st) (isDragging st) (error st) in
        (Normal tt,
         final_state (processCloudImage env file loaded),
         Await st (FileRead file)
         :: events_of (processCloudImage env file loaded))
    | None => (Normal tt, st, [Await st (FileRead file)])
    end
  else
    (Normal tt,
     mkState (uploadedImage st) (isProcessing st) (currentStage st)
             (result st) (isDragging st) (Some "Please upload an image file"),
     []).
Proof.
  destruct (startsWith "image/" (file_type file)) eqn:Himg.
  - destruct (readAsDataURL env file) as [dataURL | ] eqn:Hread.
    + rewrite (handleFileUpload_accepts env file st dataURL Himg Hread).
      cbn zeta. rewrite processCloudImage_run. reflexivity.
    + unfold handleFileUpload. rewrite Himg. cbn [negb].
      unfold bind, await. rewrite Hread. reflexivity.
  - apply handleFileUpload_rejects. exact Himg.
Qed.

Lemma handleFileUpload_final (env : World) (file : File) (st : AppState) :
  final_state (handleFileUpload env file st) =
  if startsWith "image/" (file_type file) then
    match readAsDataURL env file with
    | Some dataURL =>
        mkState (Some dataURL) false 3 (run_result env file)
                (isDragging st)
                (match run_failure env file with
                 | Some e => Some (error_message e)
                 | None => None
                 end)
    | None => st
    end
  else
    mkState (uploadedImage st) (isProcessing st) (currentStage st)
            (result st) (isDragging st) (Some "Please upload an image file").
Proof.
  rewrite handleFileUpload_run.
  destruct (startsWith "image/" (file_type file)); [ | reflexivity ].
  destruct (readAsDataURL env file); [ | reflexivity ].
  cbn zeta. rewrite processCloudImage_run. reflexivity.
Qed.

Lemma handleDrop_run (env : World) (files : list File) (st : AppState) :
  handleDrop env files st =
  match files with
  | [] => (Normal tt, drop_state st, [PreventDefault])
  | file0 :: _ =>
      (completion_of (handleFileUpload env file0 (drop_state st)),
       final_state (handleFileUpload env file0 (drop_state st)),
       PreventDefault :: events_of (handleFileUpload env file0 (drop_state st)))
  end.
Proof.
  destruct files as [ | file0 others ]; [ reflexivity | ].
  unfold handleDrop, bind, emit, setIsDragging. fold (drop_state st).
  destruct (handleFileUpload env file0 (drop_state st)) as [[c s] log].
  reflexivity.
Qed.

(** ** What is shown *)





(** ** The fallback of a failed call *)

(** C1, as stated, fails: with the server unreachable the run ends with
    the error banner showing the failure's own message, "Failed to
    fetch", above the fabricated result. *)
Lemma failed_call_shows_its_message :
  network_call_fails offline_world cloud1
  /\ error_banner
       (render offline_world
          (final_state (processCloudImage offline_world cloud1 initialState)))
     = Some "Failed to fetch".
Proof. split; [ exact I | reflexivity ]. Qed.

(** C1, amended: when the call to /process-cloud fails (fetch rejects or
    the response is not ok), the run stores the locally fabricated record
    as the result, so that after processing the result is non-null and the
    results view is rendered; the failure's message is stored as the error
    and, unless it is empty, the error banner shows it together with the
    fabricated result. *)
Theorem failed_call_stores_fabricated_result
    (env : World) (file : File) (st : AppState) :
  network_call_fails env file ->
  let final := final_state (processCloudImage env file st) in
  result final = Held (mockResult env)
  /\ isProcessing final = false
  /\ shows_result env final = true
  /\ exists e,
       run_failure env file = Some e
       /\ error final = Some (error_message e)
       /\ error_banner (render env final)
          = if truthy_string (error_message e)
            then Some (error_message e) else None.
Proof.
  intros Hfail. destruct (network_failure_thrown env file Hfail) as [e He].
  rewrite processCloudImage_run. cbn zeta.
  unfold final_state, shows_result. cbn [fst snd result isProcessing error].
  rewrite (run_failure_result env file e He), He.
  repeat split.
  exists e. repeat split.
Qed.

Lemma failed_call_stores_fabricated_result_witness :
  network_call_fails failing_server_world cloud1
  /\ result (final_state
               (processCloudImage failing_server_world cloud1 initialState))
     = Held (mockResult failing_server_world).
Proof.
  split; [ reflexivity | ].
  apply (failed_call_stores_fabricated_result failing_server_world cloud1
           initialState).
  reflexivity.
Defined.

(** ** The phases of a run *)



(** ** Simulated stages, then the network call *)

(** C3: every run shows the four stages 0, 1, 2, 3 in order, each held
    for one simulated delay of 1000 ms, and issues the POST to
    /process-cloud only after the fourth delay; no other timer or network
    call follows. *)
Theorem stages_precede_network_call
    (env : World) (file : File) (st : AppState) :
  js_length processingStages = 4
  /\ exists rest,
       events_of (processCloudImage env file st)
       = [ Await (stage_state st 0) (Sleep 1000);
           Await (stage_state st 1) (Sleep 1000);
           Await (stage_state st 2) (Sleep 1000);
           Await (stage_state st 3) (Sleep 1000);
           Await (stage_state st 3)
                 (FetchPost (API_BASE_URL env ++ "/process-cloud") "file" file) ]
         ++ rest
       /\ existsb is_network_event rest = false
       /\ existsb is_timer_event rest = false.
Proof.
  split; [ reflexivity | ].
  rewrite processCloudImage_run. unfold events_of. cbn [snd].
  eexists. split; [ reflexivity | ].
  unfold reads_json.
  destruct (fetch env (process_url env) "file" file) as [e | r];
    [ | destruct (ok r) ];
    destruct (run_failure env file); split; reflexivity.
Qed.

(** ** Rejected uploads *)

(** C4: for a file whose MIME type does not start with "image/", the
    upload handler sets the error message and does nothing else: it
    awaits nothing (no file read, no timer, no request to /process-cloud),
    and the result, hence any session, stays as it was. *)
Theorem non_image_upload_rejected
    (env : World) (file : File) (st : AppState) :
  startsWith "image/" (file_type file) = false ->
  let run := handleFileUpload env file st in
  error (final_state run) = Some "Please upload an image file"
  /\ events_of run = []
  /\ existsb is_network_event (events_of run) = false
  /\ result (final_state run) = result st
  /\ isProcessing (final_state run) = isProcessing st
  /\ uploadedImage (final_state run) = uploadedImage st.
Proof.
  intros H. cbn zeta. rewrite (handleFileUpload_rejects env file st H).
  repeat split.
Qed.

Lemma non_image_upload_rejected_witness :
  startsWith "image/" (file_type notes) = false
  /\ events_of (handleFileUpload online_world notes initialState) = [].
Proof.
  split; [ reflexivity | ].
  apply (non_image_upload_rejected online_world notes initialState).
  reflexivity.
Defined.

(** ** The fabricated record *)

(** C5: whenever the fallback runs, the stored record's detected_object
    is a non-empty string, one of "dragon", "dog" and "castle". *)
Theorem fallback_detected_object
    (env : World) (file : File) (st : AppState) (e : Thrown) :
  unit_double (random_object env) ->
  run_failure env file = Some e ->
  exists r s,
    result (final_state (processCloudImage env file st)) = Held r
    /\ detected_object r = JSString s
    /\ s <> EmptyString
    /\ In s ["dragon"; "dog"; "castle"].
Proof.
  intros Hu He. rewrite processCloudImage_run.
  unfold final_state. cbn [fst snd result].
  rewrite (run_failure_result env file e He).
  destruct (mock_object_drawn (random_object env) Hu) as [s [Hs Hin]].
  exists (mockResult env), s.
  split; [ reflexivity | ]. split; [ exact Hs | ].
  split; [ | exact Hin ].
  destruct Hin as [<- | [<- | [<- | []]]]; discriminate.
Qed.

Lemma fallback_detected_object_witness :
  exists r s,
    result (final_state (processCloudImage offline_world cloud1 initialState))
    = Held r
    /\ detected_object r = JSString s
    /\ s <> EmptyString
    /\ In s ["dragon"; "dog"; "castle"].
Proof.
  apply (fallback_detected_object offline_world cloud1 initialState
           (JSError "Failed to fetch")).
  - unfold unit_double. cbn. lia.
  - reflexivity.
Defined.

(** C6: the pool holds three captions, the index drawn for the fallback
    is within it, and so the caption of the fabricated record is one of
    the [funnyCaptions]. *)
Theorem fallback_caption_from_pool
    (env : World) (file : File) (st : AppState) (e : Thrown) :
  unit_double (random_caption env) ->
  run_failure env file = Some e ->
  js_length funnyCaptions = 3
  /\ 0 <= Math_floor (double_mul (random_caption env) (js_length funnyCaptions))
       < js_length funnyCaptions
  /\ exists r c,
       result (final_state (processCloudImage env file st)) = Held r
       /\ caption r = JSString c
       /\ In c funnyCaptions.
Proof.
  intros Hu He. split; [ reflexivity | ].
  split; [ exact (floor_times_3_range (random_caption env) Hu) | ].
  rewrite processCloudImage_run.
  unfold final_state. cbn [fst snd result].
  rewrite (run_failure_result env file e He).
  destruct (mock_caption_drawn (random_caption env) Hu) as [c [Hc Hin]].
  exists (mockResult env), c.
  split; [ reflexivity | ]. split; [ exact Hc | exact Hin ].
Qed.

Lemma fallback_caption_from_pool_witness :
  exists r c,
    result (final_state
              (processCloudImage failing_server_world cloud1 initialState))
    = Held r
    /\ caption r = JSString c
    /\ In c funnyCaptions.
Proof.
  apply (fallback_caption_from_pool failing_server_world cloud1 initialState
           (JSError "Server responded with 500")).
  - unfold unit_double. cbn. lia.
  - reflexivity.
Defined.

Lemma mockResult_slots_strings (env : World) :
  unit_double (random_object env) ->
  unit_double (random_caption env) ->
  forallb is_string (map snd (slots (mockResult env))) = true.
Proof.
  intros Ho Hc.
  destruct (mock_object_drawn (random_object env) Ho) as [o [Hos _]].
  destruct (mock_caption_drawn (random_caption env) Hc) as [c [Hcs _]].
  unfold slots, mockResult.
  cbn [session_id detected_object caption original_image_url
       generated_image_url download_url map snd].
  rewrite Hos, Hcs. reflexivity.
Qed.

(** C7, as stated, fails for a record received from the server: when the
    server answers ok with the body {}, the client stores that object as
    it is and renders the results view from it, with none of the six
    fields holding a string. *)
Lemma empty_object_stored_as_received :
  let final :=
    final_state (processCloudImage empty_object_world cloud1 initialState) in
  result final = Held empty_object
  /\ shows_result empty_object_world final = true
  /\ forallb is_string (map snd (slots empty_object)) = false
  /\ detected_object empty_object = JSUndefined.
Proof. repeat split. Qed.

(** C7, amended: the record the client fabricates as fallback has the six
    fields session_id, detected_object, caption, original_image_url,
    generated_image_url and download_url, each holding a string, and it is
    what a failed run stores.  What a successful call received from the
    server is stored exactly as it was parsed, without any check: it has
    the six string fields only if the body the server sent has them. *)
Theorem stored_record_fabricated_or_as_received
    (env : World) (file : File) (st : AppState) :
  unit_double (random_object env) ->
  unit_double (random_caption env) ->
  let final := final_state (processCloudImage env file st) in
  map fst (slots (mockResult env))
  = [ "session_id"; "detected_object"; "caption"; "original_image_url";
      "generated_image_url"; "download_url" ]
  /\ forallb is_string (map snd (slots (mockResult env))) = true
  /\ (forall e,
         run_failure env file = Some e ->
         result final = Held (mockResult env))
  /\ (forall resp data,
         fetch env (process_url env) "file" file = Resolves resp ->
         ok resp = true ->
         json resp = JsonResolves data ->
         result final = data)
  /\ (result final = Held (mockResult env)
      \/ exists resp,
           fetch env (process_url env) "file" file = Resolves resp
           /\ ok resp = true
           /\ json resp = JsonResolves (result final)).
Proof.
  intros Ho Hc. cbn zeta. rewrite processCloudImage_run.
  unfold final_state. cbn [fst snd result].
  split; [ reflexivity | ].
  split; [ apply mockResult_slots_strings; assumption | ].
  split; [ intros e He; apply (run_failure_result env file e He) | ].
  split.
  - intros resp data Hfetch Hok Hjson.
    unfold run_result. rewrite Hfetch, Hok, Hjson. reflexivity.
  - unfold run_result.
    destruct (fetch env (process_url env) "file" file) as [e | resp] eqn:Ef;
      [ left; reflexivity | ].
    destruct (ok resp) eqn:Eok; [ | left; reflexivity ].
    destruct (json resp) as [e | data] eqn:Ej; [ left; reflexivity | ].
    right. exists resp. repeat split; assumption.
Qed.

Lemma stored_record_fabricated_or_as_received_witness :
  forallb is_string (map snd (slots (mockResult online_world))) = true
  /\ result (final_state (processCloudImage online_world cloud1 initialState))
     = Held dragon_record.
Proof.
  destruct (stored_record_fabricated_or_as_received online_world cloud1
              initialState) as [_ [Hs [_ [Hr _]]]].
  - unfold unit_double. cbn. lia.
  - unfold unit_double. cbn. lia.
  - split; [ exact Hs | ].
    apply (Hr (mkResponse true 200 (JsonResolves (Held dragon_record))));
      reflexivity.
Defined.

(** ** The download action *)

(** C8: the download action fires exactly when a result with a non-empty
    download_url is present; it then clicks a link to API_BASE_URL
    followed by the download_url, suggesting the file name
    cloud-art-<session_id>.png; otherwise it does nothing.  The state is
    left as it was in either case. *)
Theorem download_action (env : World) (st : AppState) :
  let run := handleDownload env st in
  completion_of run = Normal tt
  /\ final_state run = st
  /\ match result st with
     | Held r =>
         match download_url r with
         | JSString (String c rest) =>
             let link :=
               mkAnchor (API_BASE_URL env ++ String c rest)
                        ("cloud-art-" ++ to_template (session_id r) ++ ".png") in
             events_of run = [AppendChild link; Click link; RemoveChild link]
         | JSString EmptyString => events_of run = []
         | JSUndefined => events_of run = []
         end
     | Blank _ => events_of run = []
     end.
Proof.
  cbn zeta. unfold handleDownload, completion_of, final_state, events_of.
  unfold bind, get_state.
  destruct (result st) as [v | r]; [ repeat split | ].
  destruct (download_url r) as [ | [ | c rest]]; repeat split.
Qed.

(** ** Completion of a run *)

(** C9: every run of processCloudImage completes normally with
    isProcessing false, after the success path and after the failure path
    alike, so the stage panel is gone; it clears the error before its
    first suspension, so no state shown during the run carries the
    previous error. *)
Theorem processing_always_completes
    (env : World) (file : File) (st : AppState) :
  let run := processCloudImage env file st in
  completion_of run = Normal tt
  /\ isProcessing (final_state run) = false
  /\ stage_panel (render env (final_state run)) = None
  /\ (exists first eff rest,
         events_of run = Await first eff :: rest
         /\ isProcessing first = true
         /\ error first = None)
  /\ Forall (fun shown => error shown = None) (snapshots (events_of run)).
Proof.
  cbn zeta. rewrite processCloudImage_run.
  unfold completion_of, final_state, events_of. cbn [fst snd].
  split; [ reflexivity | ]. split; [ reflexivity | ]. split; [ reflexivity | ].
  split.
  - do 3 eexists. split; [ reflexivity | split; reflexivity ].
  - unfold reads_json.
    destruct (fetch env (process_url env) "file" file) as [e | r];
      [ | destruct (ok r) ];
      destruct (run_failure env file); repeat constructor.
Qed.

(** ** Dropped and selected file lists *)

(** C10, as stated, fails: dropping an empty list while the drop zone is
    highlighted changes the state, isDragging going back to false. *)
Lemma empty_drop_changes_state :
  events_of (handleDrop online_world [] dragging_state) = [PreventDefault]
  /\ final_state (handleDrop online_world [] dragging_state) <> dragging_state
  /\ isDragging (final_state (handleDrop online_world [] dragging_state)) = false.
Proof.
  split; [ reflexivity | ]. split; [ discriminate | reflexivity ].
Qed.

(** C10, amended: of a dropped or selected list only the first file
    reaches the upload handler, the files after it having no influence;
    for an empty list no upload is attempted: handleFileInput leaves the
    state unchanged, and handleDrop changes nothing but isDragging, which
    it sets to false. *)
Theorem first_file_only (env : World) (st : AppState)
    (first : File) (others : list File) :
  handleDrop env (first :: others) st
  = (emit PreventDefault ;; setIsDragging false ;; handleFileUpload env first) st
  /\ handleDrop env (first :: others) st = handleDrop env [first] st
  /\ handleFileInput env (Some (first :: others)) st
     = handleFileUpload env first st
  /\ handleFileInput env (Some []) st = (Normal tt, st, [])
  /\ handleFileInput env None st = (Normal tt, st, [])
  /\ handleDrop env [] st
     = (Normal tt,
        mkState (uploadedImage st) (isProcessing st) (currentStage st)
                (result st) false (error st),
        [PreventDefault]).
Proof.
  repeat split.
Qed.

(** ** Beyond the run: uploads, drops and resets *)

Lemma snapshots_app (xs ys : list Event) :
  snapshots (xs ++ ys) = snapshots xs ++ snapshots ys.
Proof.
  induction xs as [ | ev xs IH ]; [ reflexivity | ].
  destruct ev; cbn [app snapshots]; rewrite IH; reflexivity.
Qed.

(** The states a run suspends in. *)
Lemma processCloudImage_snapshots (env : World) (file : File) (st : AppState) :
  snapshots (events_of (processCloudImage env file st))
  = [ stage_state st 0; stage_state st 1; stage_state st 2; stage_state st 3;
      stage_state st 3 ]
    ++ map (fun _ => stage_state st 3) (reads_json env file).
Proof.
  rewrite processCloudImage_run. unfold events_of. cbn [snd].
  rewrite !snapshots_app. cbn [snapshots app].
  do 5 f_equal.
  assert (Hlog : snapshots
                   (match run_failure env file with
                    | Some e => [ConsoleError "Processing failed:" e]
                    | None => []
                    end) = []).
  { destruct (run_failure env file); reflexivity. }
  rewrite Hlog, app_nil_r.
  induction (reads_json env file) as [ | eff effs IH ]; [ reflexivity | ].
  cbn [map snapshots]. rewrite IH. reflexivity.
Qed.

Lemma processCloudImage_shown (env : World) (file : File) (st : AppState) :
  Forall (fun shown => exists i, 0 <= i <= 3 /\ shown = stage_state st i)
         (snapshots (events_of (processCloudImage env file st))).
Proof.
  rewrite processCloudImage_snapshots. apply Forall_app. split.
  - repeat constructor;
      [ exists 0 | exists 1 | exists 2 | exists 3 | exists 3 ];
      (split; [ lia | reflexivity ]).
  - apply Forall_forall. intros shown Hin.
    apply in_map_iff in Hin. destruct Hin as [eff [<- _]].
    exists 3. split; [ lia | reflexivity ].
Qed.

(** X1: a run leaves the uploaded image and the drag highlight alone,
    and keeps showing the previous result, with the error cleared and
    the stage panel up, until it ends. *)
Theorem run_frame (env : World) (file : File) (st : AppState) :
  let run := processCloudImage env file st in
  uploadedImage (final_state run) = uploadedImage st
  /\ isDragging (final_state run) = isDragging st
  /\ currentStage (final_state run) = 3
  /\ Forall (fun shown =>
               uploadedImage shown = uploadedImage st
               /\ isDragging shown = isDragging st
               /\ result shown = result st
               /\ error shown = None
               /\ isProcessing shown = true
               /\ 0 <= currentStage shown <= 3)
            (snapshots (events_of run)).
Proof.
  cbn zeta. split; [ | split; [ | split ] ].
  - rewrite processCloudImage_run. reflexivity.
  - rewrite processCloudImage_run. reflexivity.
  - rewrite processCloudImage_run. reflexivity.
  - eapply Forall_impl; [ | apply processCloudImage_shown ].
    intros shown [i [Hi ->]]. cbn. repeat split; lia.
Qed.

(** X2: no handler lets an exception escape: whatever the files, the
    network and the state, each of the seven handlers completes
    normally. *)
Theorem handlers_complete_normally
    (env : World) (a : Action) (st : AppState) :
  completion_of (perform env a st) = Normal tt.
Proof.
  destruct a as [files | | | files | | | ]; cbn [perform].
  - unfold handleDrop, completion_of.
    destruct files as [ | file0 others ]; [ reflexivity | ].
    unfold bind at 1. cbn [emit]. unfold emit.
    unfold bind at 1. unfold setIsDragging.
    rewrite handleFileUpload_run.
    destruct (startsWith "image/" (file_type file0)); [ | reflexivity ].
    destruct (readAsDataURL env file0); reflexivity.
  - reflexivity.
  - reflexivity.
  - unfold handleFileInput, completion_of.
    destruct files as [[ | file0 others ] | ]; try reflexivity.
    rewrite handleFileUpload_run.
    destruct (startsWith "image/" (file_type file0)); [ | reflexivity ].
    destruct (readAsDataURL env file0); reflexivity.
  - unfold handleDownload, completion_of, bind, get_state.
    destruct (result st) as [v | res]; [ reflexivity | ].
    destruct (truthy (download_url res)); reflexivity.
  - unfold resetApp, completion_of, bind, get_state.
    cbn. destruct (upload_area_shown st); reflexivity.
  - reflexivity.
Qed.

(** X4: whatever is dropped, the drop ends the highlight of the drop
    zone: [handleDrop] first prevents the browser's default, and
    [isDragging] is false in every state it shows from then on and in the
    state it ends in. *)
Theorem drop_clears_highlight
    (env : World) (files : list File) (st : AppState) :
  let run := handleDrop env files st in
  (exists rest, events_of run = PreventDefault :: rest)
  /\ isDragging (final_state run) = false
  /\ Forall (fun shown => isDragging shown = false)
            (snapshots (events_of run)).
Proof.
  cbn zeta. rewrite handleDrop_run.
  destruct files as [ | file0 others ].
  - split; [ eexists; reflexivity | ]. split; [ reflexivity | constructor ].
  - unfold final_state at 1, events_of at 1 2. cbn [fst snd snapshots].
    split; [ eexists; reflexivity | ]. split.
    + rewrite handleFileUpload_final.
      destruct (startsWith "image/" (file_type file0)); [ | reflexivity ].
      destruct (readAsDataURL env file0); reflexivity.
    + rewrite handleFileUpload_run.
      destruct (startsWith "image/" (file_type file0)); [ | constructor ].
      destruct (readAsDataURL env file0) as [dataURL | ].
      * cbn zeta. unfold events_of at 1. cbn [snd snapshots].
        constructor; [ reflexivity | ].
        eapply Forall_impl; [ | apply processCloudImage_shown ].
        intros shown [i [_ ->]]. reflexivity.
      * repeat constructor.
Qed.

(** X5: an image file that cannot be read is dropped without a trace:
    the handler awaits the read and nothing else happens, the state is
    left as it was, no error is set and nothing is sent. *)
Theorem unreadable_image_ignored
    (env : World) (file : File) (st : AppState) :
  startsWith "image/" (file_type file) = true ->
  readAsDataURL env file = None ->
  handleFileUpload env file st = (Normal tt, st, [Await st (FileRead file)])
  /\ existsb is_network_event (events_of (handleFileUpload env file st)) = false
  /\ error (final_state (handleFileUpload env file st)) = error st.
Proof.
  intros Himg Hread. rewrite handleFileUpload_run, Himg, Hread.
  repeat split.
Qed.

Lemma unreadable_image_ignored_witness :
  handleFileUpload unreadable_world cloud1 initialState
  = (Normal tt, initialState, [Await initialState (FileRead cloud1)]).
Proof.
  apply (unreadable_image_ignored unreadable_world cloud1 initialState);
    reflexivity.
Defined.

(** ** The stage panel *)

Lemma stage_marks_before (stages : list ProcessingStage) (index current : Z) :
  current < index ->
  stage_marks stages index current
  = repeat StagePending (List.length stages).
Proof.
  revert index. induction stages as [ | stage rest IH ]; intros index Hlt.
  - reflexivity.
  - cbn [stage_marks List.length repeat].
    destruct (index =? current) eqn:E1; [ apply Z.eqb_eq in E1; lia | ].
    destruct (index <? current) eqn:E2; [ apply Z.ltb_lt in E2; lia | ].
    rewrite IH by lia. reflexivity.
Qed.

Lemma stage_marks_closed_form
    (stages : list ProcessingStage) (index current : Z) :
  stage_marks stages index current
  = if current <? index then repeat StagePending (List.length stages)
    else if current <? index + js_length stages then
      repeat StageDone (Z.to_nat (current - index))
      ++ StageCurrent
      :: repeat StagePending
           (List.length stages - 1 - Z.to_nat (current - index))
    else repeat StageDone (List.length stages).
Proof.
  revert index. induction stages as [ | stage rest IH ]; intros index.
  - unfold js_length. cbn [stage_marks List.length repeat].
    destruct (current <? index) eqn:E1; [ reflexivity | ].
    apply Z.ltb_ge in E1.
    destruct (current <? index + Z.of_nat 0) eqn:E2;
      [ apply Z.ltb_lt in E2; lia | reflexivity ].
  - destruct (current <? index) eqn:E1.
    + apply Z.ltb_lt in E1. apply stage_marks_before. exact E1.
    + apply Z.ltb_ge in E1. cbn [stage_marks].
      rewrite IH. unfold js_length. cbn [List.length].
      destruct (index =? current) eqn:E2.
      * apply Z.eqb_eq in E2. subst current.
        destruct (index <? index + 1) eqn:E3;
          [ | apply Z.ltb_ge in E3; lia ].
        destruct (index <? index + Z.of_nat (S (List.length rest))) eqn:E4;
          [ | apply Z.ltb_ge in E4; lia ].
        replace (index - index) with 0 by lia.
        cbn [Z.to_nat repeat app].
        replace (S (List.length rest) - 1 - 0)%nat
          with (List.length rest) by lia.
        reflexivity.
      * apply Z.eqb_neq in E2.
        destruct (index <? current) eqn:E3;
          [ | apply Z.ltb_ge in E3; lia ].
        destruct (current <? index + 1) eqn:E4;
          [ apply Z.ltb_lt in E4; lia | ].
        destruct (current <? index + 1 + Z.of_nat (List.length rest)) eqn:E5;
          destruct (current <? index + Z.of_nat (S (List.length rest))) eqn:E6;
          try (apply Z.ltb_lt in E5); try (apply Z.ltb_ge in E5);
          try (apply Z.ltb_lt in E6); try (apply Z.ltb_ge in E6);
          try lia.
        -- replace (Z.to_nat (current - index))
             with (S (Z.to_nat (current - (index + 1)))) by lia.
           cbn [repeat app].
           replace (S (List.length rest) - 1
                    - S (Z.to_nat (current - (index + 1))))%nat
             with (List.length rest - 1
                   - Z.to_nat (current - (index + 1)))%nat by lia.
           reflexivity.
        -- reflexivity.
Qed.

Lemma count_current_split (done pending : nat) :
  count_current
    (repeat StageDone done ++ StageCurrent :: repeat StagePending pending)
  = 1%nat.
Proof.
  unfold count_current. rewrite filter_app, length_app.
  assert (Hd : filter (fun m => match m with StageCurrent => true | _ => false end)
                      (repeat StageDone done) = []).
  { induction done as [ | n IH ]; [ reflexivity | exact IH ]. }
  assert (Hp : filter (fun m => match m with StageCurrent => true | _ => false end)
                      (repeat StagePending pending) = []).
  { induction pending as [ | n IH ]; [ reflexivity | exact IH ]. }
  rewrite Hd. cbn [filter]. rewrite Hp. reflexivity.
Qed.

(** X6: the marks of the stage panel, for any list of stages counted
    from [index]: all pending when the current stage lies before them,
    all done when it lies after them, and otherwise the earlier ones done,
    one current, the later ones pending.  Every state a run shows renders
    the panel with exactly one current stage, the one the state is at. *)
Theorem stage_panel_marks
    (stages : list ProcessingStage) (index current : Z)
    (env : World) (file : File) (st : AppState) :
  stage_marks stages index current
  = (if current <? index then repeat StagePending (List.length stages)
     else if current <? index + js_length stages then
       repeat StageDone (Z.to_nat (current - index))
       ++ StageCurrent
       :: repeat StagePending
            (List.length stages - 1 - Z.to_nat (current - index))
     else repeat StageDone (List.length stages))
  /\ Forall (fun shown =>
               exists marks,
                 stage_panel (render env shown) = Some marks
                 /\ marks
                    = repeat StageDone (Z.to_nat (currentStage shown))
                      ++ StageCurrent
                      :: repeat StagePending
                           (3 - Z.to_nat (currentStage shown))
                 /\ count_current marks = 1%nat)
            (snapshots (events_of (processCloudImage env file st))).
Proof.
  split; [ apply stage_marks_closed_form | ].
  eapply Forall_impl; [ | apply processCloudImage_shown ].
  intros shown [i [Hi ->]].
  eexists. split; [ reflexivity | ].
  cbn [stage_state currentStage].
  rewrite stage_marks_closed_form.
  destruct (i <? 0) eqn:E1; [ apply Z.ltb_lt in E1; lia | ].
  change (js_length processingStages) with 4.
  destruct (i <? 0 + 4) eqn:E2; [ | apply Z.ltb_ge in E2; lia ].
  replace (i - 0) with i by lia.
  change (List.length processingStages - 1)%nat with 3%nat.
  split; [ reflexivity | apply count_current_split ].
Qed.

(** ** After the run *)

(** X7: after a failed call the download button still acts: it clicks a
    link to the fabricated /mock/download.jpg under the API's address,
    suggesting a file name built from the fabricated session id. *)
Theorem download_after_failed_call
    (env : World) (file : File) (st : AppState) (e : Thrown) :
  run_failure env file = Some e ->
  let link :=
    mkAnchor (API_BASE_URL env ++ "/mock/download.jpg")
             ("cloud-art-mock-" ++ substring_from 2 (random_base36 env)
              ++ ".png") in
  events_of (handleDownload env (final_state (processCloudImage env file st)))
  = [AppendChild link; Click link; RemoveChild link].
Proof.
  intros He. cbn zeta. rewrite processCloudImage_run.
  unfold final_state. cbn [fst snd].
  rewrite (run_failure_result env file e He).
  reflexivity.
Qed.

Lemma download_after_failed_call_witness :
  events_of
    (handleDownload offline_world
       (final_state (processCloudImage offline_world cloud1 initialState)))
  = [ AppendChild (mkAnchor "http://localhost:8000/mock/download.jpg"
                            "cloud-art-mock-4fzyo82mvyr.png");
      Click (mkAnchor "http://localhost:8000/mock/download.jpg"
                      "cloud-art-mock-4fzyo82mvyr.png");
      RemoveChild (mkAnchor "http://localhost:8000/mock/download.jpg"
                            "cloud-art-mock-4fzyo82mvyr.png") ].
Proof.
  apply (download_after_failed_call offline_world cloud1 initialState
           (JSError "Failed to fetch")).
  reflexivity.
Defined.



Lemma string_length_append (a b : string) :
  String.length (a ++ b) = (String.length a + String.length b)%nat.
Proof.
  induction a as [ | c a IH ]; [ reflexivity | ].
  cbn [String.append String.length]. rewrite IH. reflexivity.
Qed.

(** X9: the API's address is never empty: a VITE_API_URL that is unset
    or empty falls back to http://localhost:8000, a non-empty one is
    used as it is; so the upload is never posted to the bare path
    /process-cloud. *)
Theorem api_base_url_never_empty (env : World) :
  truthy_string (API_BASE_URL env) = true
  /\ (forall url,
         VITE_API_URL env = Some url ->
         truthy_string url = true ->
         API_BASE_URL env = url)
  /\ (truthy_opt (VITE_API_URL env) = false ->
      API_BASE_URL env = "http://localhost:8000")
  /\ (API_BASE_URL env = "http://localhost:8000"
      \/ VITE_API_URL env = Some (API_BASE_URL env))
  /\ process_url env <> "/process-cloud".
Proof.
  unfold process_url, API_BASE_URL, truthy_opt.
  destruct (VITE_API_URL env) as [url | ].
  - destruct url as [ | c rest ]; cbn [truthy_string].
    + split; [ reflexivity | ].
      split; [ intros url Hurl; injection Hurl as <-; discriminate | ].
      split; [ reflexivity | ].
      split; [ left; reflexivity | discriminate ].
    + split; [ reflexivity | ].
      split; [ intros url Hurl _; injection Hurl as <-; reflexivity | ].
      split; [ discriminate | ].
      split; [ right; reflexivity | ].
      cbn [String.append]. intros H. injection H as Hc Hrest.
      apply (f_equal String.length) in Hrest.
      rewrite string_length_append in Hrest. cbn in Hrest. lia.
  - split; [ reflexivity | ].
    split; [ discriminate | ].
    split; [ reflexivity | ].
    split; [ left; reflexivity | discriminate ].
Qed.

(** ** Strings the handlers build and test *)

Lemma substring_from_suffix (n : nat) (s : string) :
  exists head,
    s = (head ++ substring_from n s)%string
    /\ String.length head = Nat.min n (String.length s).
Proof.
  revert s. induction n as [ | n IH ]; intros s.
  - exists EmptyString. split; reflexivity.
  - destruct s as [ | c rest ].
    + exists EmptyString. split; reflexivity.
    + destruct (IH rest) as [head [Hs Hlen]].
      exists (String c head). cbn [substring_from String.append String.length].
      split; [ f_equal; exact Hs | cbn [Nat.min]; f_equal; exact Hlen ].
Qed.

(** X10: the session id a failed run fabricates is "mock-" followed by
    what the printed draw leaves after its first two characters (the
    digits after "0."); a draw printed in two characters or fewer leaves
    the bare "mock-". *)
Theorem fabricated_session_id
    (env : World) (file : File) (st : AppState) (e : Thrown) :
  run_failure env file = Some e ->
  exists r head suffix,
    result (final_state (processCloudImage env file st)) = Held r
    /\ session_id r = JSString ("mock-" ++ suffix)
    /\ random_base36 env = (head ++ suffix)%string
    /\ String.length head = Nat.min 2 (String.length (random_base36 env))
    /\ String.length suffix = (String.length (random_base36 env) - 2)%nat.
Proof.
  intros He. rewrite processCloudImage_run.
  unfold final_state. cbn [fst snd result].
  rewrite (run_failure_result env file e He).
  destruct (substring_from_suffix 2 (random_base36 env)) as [head [Hs Hlen]].
  exists (mockResult env), head, (substring_from 2 (random_base36 env)).
  split; [ reflexivity | ]. split; [ reflexivity | ].
  split; [ exact Hs | ]. split; [ exact Hlen | ].
  apply (f_equal String.length) in Hs.
  rewrite string_length_append in Hs. lia.
Qed.

Lemma fabricated_session_id_witness :
  exists r head suffix,
    result (final_state
              (processCloudImage failing_server_world cloud1 initialState))
    = Held r
    /\ session_id r = JSString ("mock-" ++ suffix)
    /\ random_base36 failing_server_world = (head ++ suffix)%string
    /\ String.length head
       = Nat.min 2 (String.length (random_base36 failing_server_world))
    /\ String.length suffix
       = (String.length (random_base36 failing_server_world) - 2)%nat.
Proof.
  apply (fabricated_session_id failing_server_world cloud1 initialState
           (JSError "Server responded with 500")).
  reflexivity.
Defined.

Lemma startsWith_iff (p s : string) :
  startsWith p s = true <-> exists rest, s = (p ++ rest)%string.
Proof.
  unfold startsWith. revert s.
  induction p as [ | a p IH ]; intros s.
  - destruct s; (split; [ intros _; eexists; reflexivity | reflexivity ]).
  - destruct s as [ | b s ].
    + split; [ discriminate | intros [rest H]; discriminate ].
    + cbn [String.prefix]. destruct (ascii_dec a b) as [-> | Hab].
      * rewrite IH. split; intros [rest H]; exists rest.
        -- cbn [String.append]. f_equal. exact H.
        -- cbn [String.append] in H. injection H as H. exact H.
      * split; [ discriminate | ].
        intros [rest H]. cbn [String.append] in H. injection H as Hc _.
        congruence.
Qed.

(** X11: the upload handler goes on to read a file exactly when the
    file's MIME type is "image/" followed by anything, letter case
    included; every other type ends in the error message with nothing
    awaited. *)
Theorem upload_read_iff_image_type
    (env : World) (file : File) (st : AppState) :
  ((exists rest, file_type file = ("image/" ++ rest)%string)
   <-> exists later,
         events_of (handleFileUpload env file st)
         = Await st (FileRead file) :: later)
  /\ ((forall rest, file_type file <> ("image/" ++ rest)%string)
      <-> events_of (handleFileUpload env file st) = []
          /\ error (final_state (handleFileUpload env file st))
             = Some "Please upload an image file").
Proof.
  rewrite handleFileUpload_run.
  destruct (startsWith "image/" (file_type file)) eqn:Himg.
  - pose proof (proj1 (startsWith_iff _ _) Himg) as [rest Hrest].
    split; split.
    + intros _. destruct (readAsDataURL env file); eexists; reflexivity.
    + intros _. exists rest. exact Hrest.
    + intros Hno. destruct (Hno rest Hrest).
    + intros [Hev _]. destruct (readAsDataURL env file); discriminate.
  - split; split.
    + intros Hex. apply startsWith_iff in Hex. congruence.
    + intros [later H]. discriminate.
    + intros _. split; reflexivity.
    + intros _ rest Hrest.
      assert (startsWith "image/" (file_type file) = true)
        by (apply startsWith_iff; exists rest; exact Hrest).
      congruence.
Qed.

Lemma to_int_proper (n : Z) :
  Z.to_int n <> Decimal.Pos Decimal.Nil /\ Z.to_int n <> Decimal.Neg Decimal.Nil.
Proof.
  destruct n as [ | p | p ]; cbn [Z.to_int]; split; try discriminate;
    intros H; injection H as H; exact (DecimalPos.Unsigned.to_uint_nonnil p H).
Qed.

(** X12: when the server answers with a status that is not ok, the
    error the client stores is "Server responded with " followed by the
    status in decimal, from which the status reads back. *)
Theorem non_ok_status_in_message
    (env : World) (file : File) (st : AppState) (resp : Response) :
  fetch env (process_url env) "file" file = Resolves resp ->
  ok resp = false ->
  error (final_state (processCloudImage env file st))
  = Some ("Server responded with " ++ number_to_string (status resp))%string
  /\ option_map Z.of_int (NilZero.int_of_string (number_to_string (status resp)))
     = Some (status resp).
Proof.
  intros Hfetch Hok. rewrite processCloudImage_run.
  unfold run_failure. rewrite Hfetch, Hok.
  split; [ reflexivity | ].
  unfold number_to_string.
  destruct (to_int_proper (status resp)) as [Hpos Hneg].
  rewrite (NilZero.isi _ Hpos Hneg). cbn [option_map].
  rewrite DecimalZ.of_to. reflexivity.
Qed.

Lemma non_ok_status_in_message_witness :
  error (final_state
           (processCloudImage failing_server_world cloud1 initialState))
  = Some "Server responded with 500".
Proof.
  apply (non_ok_status_in_message failing_server_world cloud1 initialState
           (mkResponse false 500 (JsonRejects (NonError JSUndefined))));
    reflexivity.
Defined.

(** ** What the user sees afterwards *)



(** X14: resetApp brings every state back to the initial one, the drag
    highlight apart, so that only the upload area is rendered; it clears
    the file input exactly when the upload area was rendered at the click,
    hence never when it is started from one of its own two buttons. *)
Theorem reset_restores_upload_area (env : World) (st : AppState) :
  let run := resetApp st in
  final_state run = mkState None false 0 (Blank JsonNull) (isDragging st) None
  /\ upload_area (render env (final_state run)) = true
  /\ error_banner (render env (final_state run)) = None
  /\ stage_panel (render env (final_state run)) = None
  /\ preview (render env (final_state run)) = None
  /\ results (render env (final_state run)) = None
  /\ events_of run = (if upload_area_shown st then [ClearFileInput] else [])
  /\ (reset_control_shown st = true -> events_of run = []).
Proof.
  cbn zeta. unfold resetApp, final_state, events_of, bind, get_state.
  cbn [setUploadedImage setIsProcessing setCurrentStage setResult setError
       fst snd app].
  assert (Hstate :
            forall shown : bool,
              (if shown then emit ClearFileInput else ret tt)
                (mkState None false 0 (Blank JsonNull) (isDragging st) None)
              = (Normal tt, mkState None false 0 (Blank JsonNull) (isDragging st) None,
                 if shown then [ClearFileInput] else []))
    by (intros [ | ]; reflexivity).
  unfold setUploadedImage, setIsProcessing, setCurrentStage, setResult,
    setError.
  cbn [uploadedImage isProcessing currentStage result isDragging error].
  rewrite Hstate. cbn [fst snd app].
  repeat split.
  intros Hshown. unfold reset_control_shown, remove_button_shown in Hshown.
  unfold upload_area_shown.
  destruct (result st); cbn in *.
  - destruct (truthy_opt (uploadedImage st)); [ reflexivity | discriminate ].
  - rewrite andb_false_r. reflexivity.
Qed.

(** X15: a rejected file costs nothing but the banner: the state differs
    from the one before in the error alone, the upload area stays if it
    was there, and closing the banner gives back the state before when no
    error was set in it. *)
Theorem rejection_then_dismissal
    (env : World) (file : File) (st : AppState) :
  startsWith "image/" (file_type file) = false ->
  let rejected := final_state (handleFileUpload env file st) in
  error_banner (render env rejected) = Some "Please upload an image file"
  /\ upload_area (render env rejected) = upload_area (render env st)
  /\ results (render env rejected) = results (render env st)
  /\ final_state (dismissError rejected)
     = mkState (uploadedImage st) (isProcessing st) (currentStage st)
               (result st) (isDragging st) None
  /\ (error st = None -> final_state (dismissError rejected) = st).
Proof.
  intros Himg. cbn zeta. rewrite handleFileUpload_final, Himg.
  repeat split.
  intros Herr. destruct st as [u p s r d e]. cbn in *. subst e. reflexivity.
Qed.

Lemma rejection_then_dismissal_witness :
  final_state
    (dismissError
       (final_state (handleFileUpload online_world notes initialState)))
  = initialState.
Proof.
  apply (rejection_then_dismissal online_world notes initialState);
    reflexivity.
Defined.

(** ** Network traffic *)

Lemma processCloudImage_posts (env : World) (file : File) (st : AppState) :
  filter is_network_event (events_of (processCloudImage env file st))
  = [Await (stage_state st 3) (FetchPost (process_url env) "file" file)].
Proof.
  rewrite processCloudImage_run. unfold events_of, reads_json. cbn [snd].
  destruct (fetch env (process_url env) "file" file) as [e | r];
    [ | destruct (ok r) ];
    destruct (run_failure env file); reflexivity.
Qed.

Lemma handleFileUpload_posts (env : World) (file : File) (st : AppState) :
  filter is_network_event (events_of (handleFileUpload env file st))
  = if startsWith "image/" (file_type file) then
      match readAsDataURL env file with
      | Some dataURL =>
          [Await (mkState (Some dataURL) true 3 (result st) (isDragging st) None)
                 (FetchPost (process_url env) "file" file)]
      | None => []
      end
    else [].
Proof.
  rewrite handleFileUpload_run.
  destruct (startsWith "image/" (file_type file)); [ | reflexivity ].
  destruct (readAsDataURL env file) as [dataURL | ]; [ | reflexivity ].
  cbn zeta. unfold events_of at 1. cbn [snd filter is_network_event].
  rewrite processCloudImage_posts. reflexivity.
Qed.

(** X16: a handler posts at most once, and only to /process-cloud under
    the API's address, under the form field "file": the file posted is
    the first of a dropped or selected list, of an image type, and one the
    reader could read.  Clicks and drag movements send nothing. *)
Theorem at_most_one_post (env : World) (a : Action) (st : AppState) :
  let posts := filter is_network_event (events_of (perform env a st)) in
  (List.length posts <= 1)%nat
  /\ forall shown url field file,
       In (Await shown (FetchPost url field file)) posts ->
       url = (API_BASE_URL env ++ "/process-cloud")%string
       /\ field = "file"
       /\ startsWith "image/" (file_type file) = true
       /\ readAsDataURL env file <> None
       /\ exists others,
            a = DropFiles (file :: others)
            \/ a = SelectFiles (Some (file :: others)).
Proof.
  cbn zeta.
  assert (Hupload :
            forall file0 st0 shown url field file,
              In (Await shown (FetchPost url field file))
                 (filter is_network_event
                    (events_of (handleFileUpload env file0 st0))) ->
              url = process_url env /\ field = "file" /\ file = file0
              /\ startsWith "image/" (file_type file0) = true
              /\ readAsDataURL env file0 <> None).
  { intros file0 st0 shown url field file. rewrite handleFileUpload_posts.
    destruct (startsWith "image/" (file_type file0)); [ | intros [] ].
    destruct (readAsDataURL env file0) as [dataURL | ]; [ | intros [] ].
    intros [Heq | []]. injection Heq as _ <- <- <-.
    repeat split. discriminate. }
  assert (Hlen :
            forall file0 st0,
              (List.length
                 (filter is_network_event
                    (events_of (handleFileUpload env file0 st0))) <= 1)%nat).
  { intros file0 st0. rewrite handleFileUpload_posts.
    destruct (startsWith "image/" (file_type file0)); [ | cbn; lia ].
    destruct (readAsDataURL env file0); cbn; lia. }
  destruct a as [files | | | files | | | ]; cbn [perform].
  - rewrite handleDrop_run. destruct files as [ | file0 others ].
    + split; [ cbn; lia | intros shown url field file [] ].
    + unfold events_of at 1 3. cbn [snd filter is_network_event].
      split; [ apply Hlen | ].
      intros shown url field file Hin.
      destruct (Hupload _ _ _ _ _ _ Hin) as [-> [-> [-> [Hi Hr]]]].
      repeat split; try assumption. exists others. left. reflexivity.
  - split; [ cbn; lia | intros shown url field file [] ].
  - split; [ cbn; lia | intros shown url field file [] ].
  - destruct files as [[ | file0 others ] | ]; cbn [handleFileInput].
    + split; [ cbn; lia | intros shown url field file [] ].
    + split; [ apply Hlen | ].
      intros shown url field file Hin.
      destruct (Hupload _ _ _ _ _ _ Hin) as [-> [-> [-> [Hi Hr]]]].
      repeat split; try assumption. exists others. right. reflexivity.
    + split; [ cbn; lia | intros shown url field file [] ].
  - unfold handleDownload, events_of, bind, get_state.
    destruct (result st) as [v | res];
      [ | destruct (truthy (download_url res)) ];
      (split; [ cbn; lia | intros shown url field file [] ]).
  - unfold resetApp, events_of, bind, get_state. cbn.
    destruct (upload_area_shown st);
      (split; [ cbn; lia | intros shown url field file [] ]).
  - split; [ cbn; lia | intros shown url field file [] ].
Qed.
